(** * The epoch loop of PyTorch Lightning ([pytorch_lightning/loops/epoch_loop.py])

    A shallow embedding of [EpochLoop]: its constructor, the stop-condition
    property [done], the run-end teardown, the per-epoch start and the
    checkpoint-callback check, together with the properties the
    specification states about them.

    Python integers are unbounded, so every counter is a [Z].  An optional
    bound ([None] or an integer) is an [option Z].  Calls into the host
    trainer and its collaborators are recorded, in order, in a trace of
    [event]s carried by the trainer. *)

From Stdlib Require Import ZArith List String Bool Lia.
Import ListNotations.
Local Open Scope string_scope.
Local Open Scope Z_scope.

Set Implicit Arguments.

(** ** Python values and truthiness

    [done] mixes [None], integers and booleans under [and]/[or], whose
    result is one of the operands; the three shapes are kept apart. *)

Inductive pyval : Type :=
| PyNone
| PyInt (n : Z)
| PyBool (b : bool).

Definition truthy (v : pyval) : bool :=
  match v with
  | PyNone => false
  | PyInt n => negb (n =? 0)
  | PyBool b => b
  end.

(** [a and b]: [a] when [a] is falsy, else [b]. *)
Definition py_and (a b : pyval) : pyval := if truthy a then b else a.

(** [a or b]: [a] when [a] is truthy, else [b]. *)
Definition py_or (a b : pyval) : pyval := if truthy a then a else b.

(** [o is None] *)
Definition is_None {A : Type} (o : option A) : bool :=
  match o with
  | None => true
  | Some _ => false
  end.

(** ** Collaborators *)

(** A checkpoint callback, as far as the loop looks at it. *)
Record ModelCheckpoint : Type := mkModelCheckpoint {
  cb_name : string;
  save_last : bool;
  verbose : bool
}.

Inductive RunningStage : Type :=
| TRAINING
| VALIDATING.

(** Calls the loop makes on the trainer and on what hangs off it.  The
    checkpoint callback event records the global step the callback can
    read at the time it is called. *)
Inductive event : Type :=
| CallHook (name : string)
| LogInfo (min_epochs min_steps : option Z)
| RankZeroInfo (msg : string)
| CbOnValidationEnd (cb : ModelCheckpoint) (seen_global_step : Z)
| ResetTrainDataloader
| SamplerSetEpoch (epoch : Z)
| AccumulationSchedulerOnTrainEpochStart
| UpdateLearningRates (interval : string)
| RunEvaluation (on_epoch : bool)
| LogTrainEpochEndMetrics
| ProfileScope (name : string)
| LoggerFinalize (status : string)
| ProfilerDescribe
| AcceleratorOnTrainEnd.

Record Trainer : Type := mkTrainer {
  should_stop : bool;
  reload_dataloaders_every_epoch : bool;
  has_trained : bool;                       (* checkpoint_connector.has_trained *)
  checkpoint_callbacks : list ModelCheckpoint;
  has_logger : bool;                        (* logger is not None *)
  sampler_has_set_epoch : bool;             (* train_dataloader.sampler.set_epoch works *)
  accumulate_grad_batches : Z;
  accumulation_schedule : Z -> option Z;    (* what accumulation_scheduler sets, by epoch *)
  disable_validation : bool;
  _running_stage : option RunningStage;
  trace : list event
}.

(** The inner step loop, as far as the epoch loop reads and writes it. *)
Record TrainingLoop : Type := mkTrainingLoop {
  tl_global_step : Z;
  tl_min_steps : option Z;
  tl_max_steps : option Z;
  accumulated_loss_window : option Z        (* batch_loop.accumulated_loss *)
}.

Record EpochLoop : Type := mkEpochLoop {
  iteration_count : Z;
  _teardown_already_run : bool;
  max_epochs : option Z;
  min_epochs : option Z;
  current_epoch : Z;
  training_loop : TrainingLoop
}.

(** Modelled from the spec: the constructor of the inner step loop
    ([TrainingLoop(min_steps, max_steps)], pytorch_lightning/loops/training_loop.py),
    which stores the two step bounds and exposes a global step that starts
    at zero. *)
Definition TrainingLoop__init__ (min_steps max_steps : option Z) : TrainingLoop :=
  {| tl_global_step := 0;
     tl_min_steps := min_steps;
     tl_max_steps := max_steps;
     accumulated_loss_window := None |}.

(** [EpochLoop.__init__]; [Loop.__init__] starts the iteration counter at 0. *)
Definition __init__ (min_epochs max_epochs min_steps max_steps : option Z) : EpochLoop :=
  {| iteration_count := 0;
     _teardown_already_run := false;
     max_epochs := if is_None max_epochs && is_None max_steps then Some 1000 else max_epochs;
     min_epochs := if is_None min_epochs && is_None min_steps then Some 1 else min_epochs;
     current_epoch := 0;
     training_loop := TrainingLoop__init__ min_steps max_steps |}.

(** The read-through properties of [EpochLoop]. *)
Definition global_step (self : EpochLoop) : Z := tl_global_step (training_loop self).
Definition min_steps (self : EpochLoop) : option Z := tl_min_steps (training_loop self).
Definition max_steps (self : EpochLoop) : option Z := tl_max_steps (training_loop self).

(** ** The state the methods run in

    A connected loop ([connect] stores the trainer on the loop and on its
    inner loop): the loop object and the trainer it points to. *)

Record State : Type := mkState {
  self : EpochLoop;
  trainer : Trainer
}.

Definition connect (l : EpochLoop) (t : Trainer) : State :=
  {| self := l; trainer := t |}.

(** A state monad for the method bodies. *)
Definition M (A : Type) : Type := State -> A * State.

Definition ret {A : Type} (a : A) : M A := fun st => (a, st).

Definition bind {A B : Type} (m : M A) (k : A -> M B) : M B :=
  fun st => let (a, st') := m st in k a st'.

Notation "x <- m ;; k" := (bind m (fun x => k))
  (at level 61, m at next level, right associativity).
Notation "m ;; k" := (bind m (fun _ => k))
  (at level 61, right associativity).

Definition gets {A : Type} (f : State -> A) : M A := fun st => (f st, st).

Definition modify (f : State -> State) : M unit := fun st => (tt, f st).

Definition when (b : bool) (m : M unit) : M unit := if b then m else ret tt.

Definition exec {A : Type} (m : M A) (st : State) : State := snd (m st).

Definition eval {A : Type} (m : M A) (st : State) : A := fst (m st).

(** *** Field updates *)

Definition with_trace (f : list event -> list event) (t : Trainer) : Trainer :=
  {| should_stop := should_stop t;
     reload_dataloaders_every_epoch := reload_dataloaders_every_epoch t;
     has_trained := has_trained t;
     checkpoint_callbacks := checkpoint_callbacks t;
     has_logger := has_logger t;
     sampler_has_set_epoch := sampler_has_set_epoch t;
     accumulate_grad_batches := accumulate_grad_batches t;
     accumulation_schedule := accumulation_schedule t;
     disable_validation := disable_validation t;
     _running_stage := _running_stage t;
     trace := f (trace t) |}.

Definition with_should_stop (b : bool) (t : Trainer) : Trainer :=
  {| should_stop := b;
     reload_dataloaders_every_epoch := reload_dataloaders_every_epoch t;
     has_trained := has_trained t;
     checkpoint_callbacks := checkpoint_callbacks t;
     has_logger := has_logger t;
     sampler_has_set_epoch := sampler_has_set_epoch t;
     accumulate_grad_batches := accumulate_grad_batches t;
     accumulation_schedule := accumulation_schedule t;
     disable_validation := disable_validation t;
     _running_stage := _running_stage t;
     trace := trace t |}.

Definition with_has_trained (b : bool) (t : Trainer) : Trainer :=
  {| should_stop := should_stop t;
     reload_dataloaders_every_epoch := reload_dataloaders_every_epoch t;
     has_trained := b;
     checkpoint_callbacks := checkpoint_callbacks t;
     has_logger := has_logger t;
     sampler_has_set_epoch := sampler_has_set_epoch t;
     accumulate_grad_batches := accumulate_grad_batches t;
     accumulation_schedule := accumulation_schedule t;
     disable_validation := disable_validation t;
     _running_stage := _running_stage t;
     trace := trace t |}.

Definition with_running_stage (r : option RunningStage) (t : Trainer) : Trainer :=
  {| should_stop := should_stop t;
     reload_dataloaders_every_epoch := reload_dataloaders_every_epoch t;
     has_trained := has_trained t;
     checkpoint_callbacks := checkpoint_callbacks t;
     has_logger := has_logger t;
     sampler_has_set_epoch := sampler_has_set_epoch t;
     accumulate_grad_batches := accumulate_grad_batches t;
     accumulation_schedule := accumulation_schedule t;
     disable_validation := disable_validation t;
     _running_stage := r;
     trace := trace t |}.

Definition with_accumulate_grad_batches (w : Z) (t : Trainer) : Trainer :=
  {| should_stop := should_stop t;
     reload_dataloaders_every_epoch := reload_dataloaders_every_epoch t;
     has_trained := has_trained t;
     checkpoint_callbacks := checkpoint_callbacks t;
     has_logger := has_logger t;
     sampler_has_set_epoch := sampler_has_set_epoch t;
     accumulate_grad_batches := w;
     accumulation_schedule := accumulation_schedule t;
     disable_validation := disable_validation t;
     _running_stage := _running_stage t;
     trace := trace t |}.

Definition with_global_step (g : Z) (tl : TrainingLoop) : TrainingLoop :=
  {| tl_global_step := g;
     tl_min_steps := tl_min_steps tl;
     tl_max_steps := tl_max_steps tl;
     accumulated_loss_window := accumulated_loss_window tl |}.

Definition with_accumulated_loss (w : option Z) (tl : TrainingLoop) : TrainingLoop :=
  {| tl_global_step := tl_global_step tl;
     tl_min_steps := tl_min_steps tl;
     tl_max_steps := tl_max_steps tl;
     accumulated_loss_window := w |}.

Definition with_training_loop (f : TrainingLoop -> TrainingLoop) (l : EpochLoop) : EpochLoop :=
  {| iteration_count := iteration_count l;
     _teardown_already_run := _teardown_already_run l;
     max_epochs := max_epochs l;
     min_epochs := min_epochs l;
     current_epoch := current_epoch l;
     training_loop := f (training_loop l) |}.

Definition with_current_epoch (e : Z) (l : EpochLoop) : EpochLoop :=
  {| iteration_count := iteration_count l;
     _teardown_already_run := _teardown_already_run l;
     max_epochs := max_epochs l;
     min_epochs := min_epochs l;
     current_epoch := e;
     training_loop := training_loop l |}.

Definition with_teardown_already_run (b : bool) (l : EpochLoop) : EpochLoop :=
  {| iteration_count := iteration_count l;
     _teardown_already_run := b;
     max_epochs := max_epochs l;
     min_epochs := min_epochs l;
     current_epoch := current_epoch l;
     training_loop := training_loop l |}.

Definition with_iteration_count (n : Z) (l : EpochLoop) : EpochLoop :=
  {| iteration_count := n;
     _teardown_already_run := _teardown_already_run l;
     max_epochs := max_epochs l;
     min_epochs := min_epochs l;
     current_epoch := current_epoch l;
     training_loop := training_loop l |}.

Definition on_self (f : EpochLoop -> EpochLoop) : M unit :=
  modify (fun st => {| self := f (self st); trainer := trainer st |}).

Definition on_trainer (f : Trainer -> Trainer) : M unit :=
  modify (fun st => {| self := self st; trainer := f (trainer st) |}).

(** A call on a collaborator: appended to the trace. *)
Definition emit (e : event) : M unit := on_trainer (with_trace (fun tr => (tr ++ [e])%list)).

Definition call_hook (name : string) : M unit := emit (CallHook name).

(** ** [EpochLoop.done] *)

(** [self.max_steps and self.max_steps <= self.global_step]; the comparison
    is only reached when [max_steps] is an integer. *)
Definition stop_steps (l : EpochLoop) : pyval :=
  match max_steps l with
  | None => PyNone
  | Some m => py_and (PyInt m) (PyBool (m <=? global_step l))
  end.

(** [(self.current_epoch >= self.min_epochs - 1) if self.min_epochs else True] *)
Definition met_min_epochs (l : EpochLoop) : bool :=
  match min_epochs l with
  | None => true
  | Some m => if truthy (PyInt m) then current_epoch l >=? m - 1 else true
  end.

(** [self.global_step >= self.min_steps if self.min_steps else True] *)
Definition met_min_steps (l : EpochLoop) : bool :=
  match min_steps l with
  | None => true
  | Some m => if truthy (PyInt m) then global_step l >=? m else true
  end.

(** [self.current_epoch >= self.max_epochs if self.max_epochs is not None else False] *)
Definition stop_epochs (l : EpochLoop) : bool :=
  match max_epochs l with
  | Some m => current_epoch l >=? m
  | None => false
  end.

Definition done : M pyval :=
  l <- gets self ;;
  let stop_steps := stop_steps l in
  signalled <- gets (fun st => should_stop (trainer st)) ;;
  should_stop <-
    (if signalled then
       if met_min_epochs l && met_min_steps l then ret true
       else
         emit (LogInfo (min_epochs l) (min_steps l)) ;;
         on_trainer (with_should_stop false) ;;
         ret false
     else ret false) ;;
  l <- gets self ;;
  let stop_epochs := stop_epochs l in
  ret (py_or (py_or stop_steps (PyBool should_stop)) (PyBool stop_epochs)).

(** ** [EpochLoop.on_run_start] *)
Definition on_run_start : M unit := call_hook "on_train_start".

(** ** [EpochLoop.check_checkpoint_callback] *)

(** [for cb in callbacks: cb.on_validation_end(self.trainer, model)] *)
Fixpoint call_on_validation_end (callbacks : list ModelCheckpoint) : M unit :=
  match callbacks with
  | [] => ret tt
  | cb :: rest =>
      g <- gets (fun st => global_step (self st)) ;;
      emit (CbOnValidationEnd cb g) ;;
      call_on_validation_end rest
  end.

Definition check_checkpoint_callback (should_update is_last : bool) : M unit :=
  trained <- gets (fun st => has_trained (trainer st)) ;;
  when (should_update && trained)
    (callbacks <- gets (fun st => checkpoint_callbacks (trainer st)) ;;
     when (is_last && existsb (fun cb => save_last cb && verbose cb) callbacks)
       (emit (RankZeroInfo "Saving latest checkpoint...")) ;;
     call_on_validation_end callbacks).

(** ** [EpochLoop.on_run_end] *)
Definition on_run_end : M unit :=
  already <- gets (fun st => _teardown_already_run (self st)) ;;
  if already then ret tt
  else
    on_self (with_teardown_already_run true) ;;
    on_self (fun l => with_training_loop (with_global_step (global_step l - 1)) l) ;;
    check_checkpoint_callback true true ;;
    on_self (fun l => with_training_loop (with_global_step (global_step l + 1)) l) ;;
    call_hook "on_train_end" ;;
    logger <- gets (fun st => has_logger (trainer st)) ;;
    when logger (emit (LoggerFinalize "success")) ;;
    emit ProfilerDescribe ;;
    emit AcceleratorOnTrainEnd ;;
    on_trainer (with_running_stage None).

(** ** [EpochLoop.on_advance_start] *)

(** Modelled from the spec: [accumulation_scheduler.on_train_epoch_start]
    (pytorch_lightning/callbacks/gradient_accumulation_scheduler.py),
    which is told of the new epoch and may change the trainer's
    [accumulate_grad_batches] for it; the trainer's
    [accumulation_schedule] says to what, if at all. *)
Definition accumulation_scheduler_on_train_epoch_start (epoch : Z) : M unit :=
  emit AccumulationSchedulerOnTrainEpochStart ;;
  schedule <- gets (fun st => accumulation_schedule (trainer st)) ;;
  match schedule epoch with
  | Some w => on_trainer (with_accumulate_grad_batches w)
  | None => ret tt
  end.

Definition on_advance_start : M unit :=
  count <- gets (fun st => iteration_count (self st)) ;;
  let epoch := count + 1 in
  on_self (with_current_epoch epoch) ;;
  reload <- gets (fun st => reload_dataloaders_every_epoch (trainer st)) ;;
  when (negb (epoch =? 0) && reload) (emit ResetTrainDataloader) ;;
  (* with suppress(Exception): a sampler without set_epoch is skipped *)
  seeded <- gets (fun st => sampler_has_set_epoch (trainer st)) ;;
  when seeded (emit (SamplerSetEpoch epoch)) ;;
  accumulation_scheduler_on_train_epoch_start epoch ;;
  window <- gets (fun st => accumulate_grad_batches (trainer st)) ;;
  on_self (with_training_loop (with_accumulated_loss (Some window))) ;;
  call_hook "on_epoch_start" ;;
  call_hook "on_train_epoch_start".

(** ** What the collaborators do during one epoch

    The inner loop's [run], the validation pass and the callbacks they
    fire are outside this file; one [EpochEnv] per epoch says what they
    leave behind: the global step, the stop signal and whether training
    has happened, after the epoch's training and after its validation,
    and the two scheduling answers [on_advance_end] asks for.  They never
    write the epoch loop's own fields. *)

Record HostUpdate : Type := mkHostUpdate {
  upd_global_step : Z;
  upd_should_stop : bool;
  upd_has_trained : bool
}.

Record EpochEnv : Type := mkEpochEnv {
  after_run : HostUpdate;          (* training_loop.run() *)
  should_check_val : bool;         (* training_loop.should_check_val_fx(...) *)
  should_skip_eval : bool;         (* evaluation_loop.should_skip_evaluation(...) *)
  after_eval : HostUpdate          (* trainer._run_evaluation(on_epoch=True) *)
}.

Definition collaborators (u : HostUpdate) : M unit :=
  on_self (with_training_loop (with_global_step (upd_global_step u))) ;;
  on_trainer (with_should_stop (upd_should_stop u)) ;;
  on_trainer (with_has_trained (upd_has_trained u)).

(** ** [EpochLoop.advance] *)
Definition advance (e : EpochEnv) : M unit :=
  emit (ProfileScope "run_training_epoch") ;;
  collaborators (after_run e) ;;
  emit LogTrainEpochEndMetrics.

(** Modelled from the spec: [TrainingLoop.increment_accumulated_grad_global_step]
    (pytorch_lightning/loops/training_loop.py), which advances the inner
    loop's global step counter by exactly one. *)
Definition increment_accumulated_grad_global_step : M unit :=
  on_self (fun l => with_training_loop (with_global_step (global_step l + 1)) l).

(** ** [EpochLoop.on_advance_end] *)
Definition on_advance_end (e : EpochEnv) : M unit :=
  let should_check_val := should_check_val e in
  let should_skip_eval := should_skip_eval e in
  disabled <- gets (fun st => disable_validation (trainer st)) ;;
  let should_train_only := disabled || should_skip_eval in
  when (negb should_check_val || should_train_only) (emit (UpdateLearningRates "epoch")) ;;
  when should_train_only (check_checkpoint_callback true false) ;;
  when should_check_val
    (on_trainer (with_running_stage (Some VALIDATING)) ;;
     emit (RunEvaluation true) ;;
     collaborators (after_eval e) ;;
     on_trainer (with_running_stage (Some TRAINING))) ;;
  increment_accumulated_grad_global_step.

(** ** [Loop.run] *)

(** Modelled from the spec: the increment of the internal iteration
    counter of the base class [Loop] (pytorch_lightning/loops/base.py),
    done once per completed iteration, which keeps the counter equal to
    [current_epoch]. *)
Definition bump_iteration_count : M unit :=
  on_self (fun l => with_iteration_count (iteration_count l + 1) l).

(** Modelled from the spec: the loop of the driver [Loop.run]
    (pytorch_lightning/loops/base.py), from a [done] check on.  While
    [done] is falsy it runs [on_advance_start], [advance] and
    [on_advance_end] and bumps the iteration counter; when [done] is
    truthy it runs [on_run_end].

    The loop is fed one [EpochEnv] per epoch.  It returns every state it
    passes through, oldest first, and stops early when [envs] is used
    up. *)
Fixpoint iterate (envs : list EpochEnv) (st : State) : list State :=
  let (d, st1) := done st in
  st1 ::
  (if truthy d then [exec on_run_end st1]
   else
     match envs with
     | [] => []
     | e :: envs' =>
         let st2 := exec on_advance_start st1 in
         let st3 := exec (advance e) st2 in
         let st4 := exec (on_advance_end e) st3 in
         let st5 := exec bump_iteration_count st4 in
         st2 :: st3 :: st4 :: st5 :: iterate envs' st5
     end).

(** Modelled from the spec: the driver [Loop.run]
    (pytorch_lightning/loops/base.py): [on_run_start], then the loop. *)
Definition run (envs : list EpochEnv) (st : State) : list State :=
  st :: let st0 := exec on_run_start st in st0 :: iterate envs st0.

(** ** The stop rule in the specification's words *)

(** "[maxSteps] is set and [maxSteps <= globalStep]" *)
Definition stopBySteps (l : EpochLoop) : bool :=
  match max_steps l with
  | Some m => m <=? global_step l
  | None => false
  end.

(** "[maxSteps] is set, is not zero, and [maxSteps <= globalStep]" *)
Definition stopByNonzeroSteps (l : EpochLoop) : bool :=
  match max_steps l with
  | Some m => negb (m =? 0) && (m <=? global_step l)
  | None => false
  end.

(** "[maxEpochs] is set and [currentEpoch >= maxEpochs]" *)
Definition stopByEpochs (l : EpochLoop) : bool :=
  match max_epochs l with
  | Some m => m <=? current_epoch l
  | None => false
  end.

(** "[minEpochs] is unset or [currentEpoch >= minEpochs - 1]" *)
Definition metMinEpochs (l : EpochLoop) : bool :=
  match min_epochs l with
  | Some m => m - 1 <=? current_epoch l
  | None => true
  end.

(** "[minSteps] is unset or [globalStep >= minSteps]" *)
Definition metMinSteps (l : EpochLoop) : bool :=
  match min_steps l with
  | Some m => m <=? global_step l
  | None => true
  end.

(** The stop signal is set and both floors are met. *)
Definition honoredStop (st : State) : bool :=
  should_stop (trainer st) && (metMinEpochs (self st) && metMinSteps (self st)).

(** The stop rule of the specification, checked at one state: with the
    signal set, [done] is true when both floors are met, and otherwise
    clears the signal and is false. *)
Definition stop_rule_as_specified (st : State) : Prop :=
  should_stop (trainer st) = true ->
  if metMinEpochs (self st) && metMinSteps (self st)
  then eval done st = PyBool true
  else should_stop (trainer (exec done st)) = false /\ eval done st = PyBool false.

(** The state [done] leaves when it defers a stop: the signal cleared and
    the "Training will continue" line logged. *)
Definition deferred (st : State) : State :=
  {| self := self st;
     trainer :=
       with_should_stop false
         (with_trace (fun tr => (tr ++ [LogInfo (min_epochs (self st)) (min_steps (self st))])%list)
            (trainer st)) |}.

(** [currentEpoch] does not exceed [maxEpochs], when that is set. *)
Definition epoch_within_max (st : State) : Prop :=
  match max_epochs (self st) with
  | Some m => current_epoch (self st) <= m
  | None => True
  end.

(** Each element is followed by itself or by its successor. *)
Fixpoint steps_by_at_most_one (zs : list Z) : Prop :=
  match zs with
  | a :: (b :: _) as rest => (b = a \/ b = a + 1) /\ steps_by_at_most_one rest
  | _ => True
  end.

(** What [check_checkpoint_callback] appends to the trace when it runs. *)
Definition saving_message (is_last : bool) (callbacks : list ModelCheckpoint) : list event :=
  if is_last && existsb (fun cb => save_last cb && verbose cb) callbacks
  then [RankZeroInfo "Saving latest checkpoint..."]
  else [].

Definition validation_end_calls (g : Z) (callbacks : list ModelCheckpoint) : list event :=
  map (fun cb => CbOnValidationEnd cb g) callbacks.

Definition is_saving_message (e : event) : bool :=
  match e with
  | RankZeroInfo msg => String.eqb msg "Saving latest checkpoint..."
  | _ => false
  end.

Definition is_validation_end_call (e : event) : bool :=
  match e with
  | CbOnValidationEnd _ _ => true
  | _ => false
  end.

Definition append_events (evs : list event) (st : State) : State :=
  {| self := self st;
     trainer := with_trace (fun tr => (tr ++ evs)%list) (trainer st) |}.

(** What one effective [on_run_end] appends to the trace. *)
Definition teardown_events (st : State) : list event :=
  ((if has_trained (trainer st)
    then saving_message true (checkpoint_callbacks (trainer st))
         ++ validation_end_calls (global_step (self st) - 1) (checkpoint_callbacks (trainer st))
    else [])
   ++ [CallHook "on_train_end"]
   ++ (if has_logger (trainer st) then [LoggerFinalize "success"] else [])
   ++ [ProfilerDescribe; AcceleratorOnTrainEnd])%list.

(** The trainer's [accumulate_grad_batches] once the accumulation
    scheduler has been told of the epoch [on_advance_start] begins. *)
Definition scheduled_grad_batches (st : State) : Z :=
  match accumulation_schedule (trainer st) (iteration_count (self st) + 1) with
  | Some w => w
  | None => accumulate_grad_batches (trainer st)
  end.

(** What [on_advance_start] appends to the trace. *)
Definition advance_start_events (st : State) : list event :=
  let epoch := iteration_count (self st) + 1 in
  ((if negb (epoch =? 0) && reload_dataloaders_every_epoch (trainer st)
    then [ResetTrainDataloader] else [])
   ++ (if sampler_has_set_epoch (trainer st) then [SamplerSetEpoch epoch] else [])
   ++ [AccumulationSchedulerOnTrainEpochStart;
       CallHook "on_epoch_start"; CallHook "on_train_epoch_start"])%list.

(** The fields that count epochs: the iteration counter, the current
    epoch and its bound. *)
Definition epoch_view (st : State) : Z * Z * option Z :=
  (iteration_count (self st), current_epoch (self st), max_epochs (self st)).

(** A computation that leaves the epoch-counting fields alone. *)
Definition keeps_epochs {A : Type} (m : M A) : Prop :=
  forall st, epoch_view (snd (m st)) = epoch_view st.

(** The epoch of a state of a run is the iteration counter, or one more
    while an epoch is under way. *)
Definition epoch_tracks_iteration (st : State) : Prop :=
  current_epoch (self st) = iteration_count (self st) \/
  current_epoch (self st) = iteration_count (self st) + 1.

Definition epochs_of (states : list State) : list Z :=
  map (fun st => current_epoch (self st)) states.

(** The epochs started so far, as the trace shows them: each
    [on_advance_start] fires the "on_train_epoch_start" hook. *)
Definition is_train_epoch_start (e : event) : bool :=
  match e with
  | CallHook name => String.eqb name "on_train_epoch_start"
  | _ => false
  end.

Definition epochs_started (tr : list event) : nat :=
  List.length (filter is_train_epoch_start tr).

(** A computation that starts no epoch. *)
Definition keeps_started {A : Type} (m : M A) : Prop :=
  forall st, epochs_started (trace (trainer (snd (m st)))) = epochs_started (trace (trainer st)).

(** From [st0] to [s] the current epoch has grown by the number of epochs
    started in between. *)
Definition epochs_follow_starts (st0 s : State) : Prop :=
  current_epoch (self s) + Z.of_nat (epochs_started (trace (trainer st0)))
  = current_epoch (self st0) + Z.of_nat (epochs_started (trace (trainer s))).

(** A trainer to run examples against. *)
Definition example_trainer : Trainer :=
  {| should_stop := false;
     reload_dataloaders_every_epoch := true;
     has_trained := true;
     checkpoint_callbacks :=
       [mkModelCheckpoint "last" true true; mkModelCheckpoint "last" true true];
     has_logger := true;
     sampler_has_set_epoch := false;
     accumulate_grad_batches := 1;
     accumulation_schedule := fun _ => None;
     disable_validation := false;
     _running_stage := Some TRAINING;
     trace := [] |}.

(** An epoch of ten steps with validation and no stop request. *)
Definition example_epoch (n : Z) : EpochEnv :=
  {| after_run := mkHostUpdate (10 * n) false true;
     should_check_val := true;
     should_skip_eval := false;
     after_eval := mkHostUpdate (10 * n) false true |}.

(** The same state at other counter values. *)
Definition at_counters (c g : Z) (st : State) : State :=
  {| self := with_current_epoch c (with_training_loop (with_global_step g) (self st));
     trainer := trainer st |}.

(** What [on_advance_end] appends to the trace. *)
Definition advance_end_events (e : EpochEnv) (st : State) : list event :=
  let should_train_only := disable_validation (trainer st) || should_skip_eval e in
  ((if negb (should_check_val e) || should_train_only
    then [UpdateLearningRates "epoch"] else [])
   ++ (if should_train_only && has_trained (trainer st)
       then validation_end_calls (global_step (self st)) (checkpoint_callbacks (trainer st))
       else [])
   ++ (if should_check_val e then [RunEvaluation true] else []))%list.

Definition is_lr_update (e : event) : bool :=
  match e with
  | UpdateLearningRates _ => true
  | _ => false
  end.

Definition is_run_evaluation (e : event) : bool :=
  match e with
  | RunEvaluation _ => true
  | _ => false
  end.



(** * Properties *)

(** ** Python values *)

Lemma stop_steps_shape (l : EpochLoop) :
  stop_steps l = PyNone \/ stop_steps l = PyInt 0 \/ exists b, stop_steps l = PyBool b.
Proof.
  unfold stop_steps, py_and. destruct (max_steps l) as [m|]; [|now left].
  simpl. destruct (Z.eqb_spec m 0) as [->|Hm]; simpl.
  - right; left; reflexivity.
  - right; right; eexists; reflexivity.
Qed.

(** The truth value of [stop_steps]: the bound is an integer other than
    zero that the global step has reached. *)
Lemma truthy_stop_steps (l : EpochLoop) :
  truthy (stop_steps l)
  = match max_steps l with
    | Some m => negb (m =? 0) && (m <=? global_step l)
    | None => false
    end.
Proof.
  unfold stop_steps, py_and. destruct (max_steps l) as [m|]; [|reflexivity].
  simpl. destruct (m =? 0) eqn:Hm; simpl; [rewrite Hm|]; reflexivity.
Qed.

Lemma stop_epochs_stopByEpochs (l : EpochLoop) : stop_epochs l = stopByEpochs l.
Proof.
  unfold stop_epochs, stopByEpochs. destruct (max_epochs l); [|reflexivity].
  now rewrite Z.geb_leb.
Qed.

(** On counters that are not negative the floors of the code and those
    of the specification agree, a zero floor included. *)
Lemma met_min_epochs_metMinEpochs (l : EpochLoop) :
  0 <= current_epoch l -> met_min_epochs l = metMinEpochs l.
Proof.
  unfold met_min_epochs, metMinEpochs. intros Hc.
  destruct (min_epochs l) as [m|]; [|reflexivity]. simpl.
  rewrite Z.geb_leb. destruct (Z.eqb_spec m 0) as [->|_]; simpl; [|reflexivity].
  symmetry. apply Z.leb_le. lia.
Qed.

Lemma met_min_steps_metMinSteps (l : EpochLoop) :
  0 <= global_step l -> met_min_steps l = metMinSteps l.
Proof.
  unfold met_min_steps, metMinSteps. intros Hg.
  destruct (min_steps l) as [m|]; [|reflexivity]. simpl.
  rewrite Z.geb_leb. destruct (Z.eqb_spec m 0) as [->|_]; simpl; [|reflexivity].
  symmetry. apply Z.leb_le. lia.
Qed.

(** ** [done] *)

(** The state after a [done] check. *)
Lemma exec_done (st : State) :
  exec done st =
  if should_stop (trainer st) && negb (met_min_epochs (self st) && met_min_steps (self st))
  then deferred st else st.
Proof.
  unfold exec, done, bind, gets, ret, emit, on_trainer, modify, deferred. simpl.
  destruct (should_stop (trainer st)); simpl; [|reflexivity].
  destruct (met_min_epochs (self st) && met_min_steps (self st)); reflexivity.
Qed.

(** The value of a [done] check is always a boolean. *)
Lemma eval_done (st : State) :
  eval done st =
  PyBool (truthy (stop_steps (self st))
          || should_stop (trainer st) && (met_min_epochs (self st) && met_min_steps (self st))
          || stop_epochs (self st)).
Proof.
  unfold eval, done, bind, gets, ret, emit, on_trainer, modify. simpl.
  destruct (should_stop (trainer st)); simpl.
  - destruct (met_min_epochs (self st) && met_min_steps (self st)); simpl;
      destruct (stop_steps_shape (self st)) as [E|[E|[b E]]]; rewrite E; simpl;
      try reflexivity; destruct b; reflexivity.
  - destruct (stop_steps_shape (self st)) as [E|[E|[b E]]]; rewrite E; simpl;
      try reflexivity; destruct b; reflexivity.
Qed.

Lemma self_exec_done (st : State) : self (exec done st) = self st.
Proof.
  rewrite exec_done.
  destruct (should_stop (trainer st) && negb (met_min_epochs (self st) && met_min_steps (self st)));
    reflexivity.
Qed.

(** Away from a step bound of zero, and on counters that are not
    negative, [done] is the disjunction the specification gives. *)
Lemma eval_done_as_specified (st : State) :
  max_steps (self st) <> Some 0 ->
  0 <= current_epoch (self st) ->
  0 <= global_step (self st) ->
  eval done st
  = PyBool (stopBySteps (self st) || honoredStop st || stopByEpochs (self st)).
Proof.
  intros Hm Hc Hg. rewrite eval_done, truthy_stop_steps, stop_epochs_stopByEpochs.
  rewrite (met_min_epochs_metMinEpochs _ Hc), (met_min_steps_metMinSteps _ Hg).
  unfold honoredStop, stopBySteps.
  destruct (max_steps (self st)) as [m|]; [|reflexivity].
  destruct (Z.eqb_spec m 0) as [->|_]; [congruence|reflexivity].
Qed.

(** A floor the specification counts as met is met in the code, whatever
    the counters are. *)
Lemma metMinEpochs_met_min_epochs (l : EpochLoop) :
  metMinEpochs l = true -> met_min_epochs l = true.
Proof.
  unfold met_min_epochs, metMinEpochs. destruct (min_epochs l) as [m|]; [|reflexivity].
  simpl. rewrite Z.geb_leb. intros ->. now destruct (negb (m =? 0)).
Qed.

Lemma metMinSteps_met_min_steps (l : EpochLoop) :
  metMinSteps l = true -> met_min_steps l = true.
Proof.
  unfold met_min_steps, metMinSteps. destruct (min_steps l) as [m|]; [|reflexivity].
  simpl. rewrite Z.geb_leb. intros ->. now destruct (negb (m =? 0)).
Qed.

(** C1, at the input where it fails: a loop built with [max_steps = 0] and
    no epoch bound has reached its step bound before the first step
    ([maxSteps <= globalStep], so [stopBySteps] holds), and yet its [done]
    check is false: [0 and ...] is the falsy [0]. *)
Theorem done_false_at_max_steps_zero :
  let st := connect (__init__ None None None (Some 0)) example_trainer in
  max_steps (self st) = Some 0 /\
  max_epochs (self st) = None /\
  global_step (self st) = 0 /\
  stopBySteps (self st) = true /\
  stop_steps (self st) = PyInt 0 /\
  eval done st = PyBool false.
Proof. cbv zeta. repeat split; reflexivity. Qed.

(** C2, as stated, fails: with a floor of three epochs not yet met and
    the step bound of ten reached, [done] clears the stop signal and is
    true, not false. *)
Lemma stop_rule_as_specified_fails :
  ~ stop_rule_as_specified
      (connect
         (with_current_epoch 1
            (with_training_loop (with_global_step 10)
               (__init__ (Some 3) None None (Some 10))))
         (with_should_stop true example_trainer)).
Proof.
  unfold stop_rule_as_specified. intros H.
  specialize (H eq_refl). vm_compute in H. destruct H as [_ H]. discriminate H.
Qed.

(** C2, amended: with the stop signal set, [done] is true and keeps the
    signal when both floors are met; when a floor is not met (on counters
    that are not negative) it clears the signal, logs that training
    continues, and is true exactly when a maximum has been reached: a
    step bound that is set, not zero and at most the global step, or an
    epoch bound that is set and at most the current epoch. *)
Theorem stop_signal_rule (st : State) :
  should_stop (trainer st) = true ->
  (metMinEpochs (self st) && metMinSteps (self st) = true ->
   eval done st = PyBool true /\ exec done st = st) /\
  (metMinEpochs (self st) && metMinSteps (self st) = false ->
   0 <= current_epoch (self st) ->
   0 <= global_step (self st) ->
   exec done st = deferred st /\
   should_stop (trainer (exec done st)) = false /\
   eval done st = PyBool (stopByNonzeroSteps (self st) || stopByEpochs (self st))).
Proof.
  intros Hs. split.
  - intros Hmet. apply andb_prop in Hmet as [He Hm].
    apply metMinEpochs_met_min_epochs in He. apply metMinSteps_met_min_steps in Hm.
    rewrite eval_done, exec_done, Hs, He, Hm. simpl.
    now rewrite orb_true_r.
  - intros Hmet Hc Hg.
    assert (Hcode : met_min_epochs (self st) && met_min_steps (self st) = false)
      by (rewrite (met_min_epochs_metMinEpochs _ Hc), (met_min_steps_metMinSteps _ Hg);
          exact Hmet).
    assert (Hex : exec done st = deferred st)
      by (rewrite exec_done, Hs, Hcode; reflexivity).
    rewrite Hex. repeat split.
    rewrite eval_done, truthy_stop_steps, stop_epochs_stopByEpochs, Hs, Hcode.
    unfold stopByNonzeroSteps. simpl. now rewrite orb_false_r.
Qed.

Lemma stop_signal_rule_witness :
  let st :=
    connect
      (with_current_epoch 1
         (with_training_loop (with_global_step 10)
            (__init__ (Some 3) None None (Some 10))))
      (with_should_stop true example_trainer) in
  exec done st = deferred st /\
  should_stop (trainer (exec done st)) = false /\
  eval done st = PyBool true.
Proof.
  intro st.
  destruct (proj2 (stop_signal_rule st eq_refl) eq_refl) as (Hex & Hclear & Hval);
    [apply Z.leb_le; reflexivity ..|].
  split; [exact Hex|]. split; [exact Hclear|].
  rewrite Hval. reflexivity.
Defined.



(** C10: a [done] check leaves the loop object as it was (and with it
    [current_epoch], [global_step], the four bounds and the teardown
    guard); the state as a whole is either untouched, or the stop signal
    was set and is now cleared, with the "Training will continue" line
    logged and nothing else on the trainer changed. *)
Theorem done_frame (st : State) :
  self (exec done st) = self st /\
  current_epoch (self (exec done st)) = current_epoch (self st) /\
  global_step (self (exec done st)) = global_step (self st) /\
  min_epochs (self (exec done st)) = min_epochs (self st) /\
  max_epochs (self (exec done st)) = max_epochs (self st) /\
  min_steps (self (exec done st)) = min_steps (self st) /\
  max_steps (self (exec done st)) = max_steps (self st) /\
  _teardown_already_run (self (exec done st)) = _teardown_already_run (self st) /\
  (exec done st = st \/
   should_stop (trainer st) = true /\
   should_stop (trainer (exec done st)) = false /\
   exec done st = deferred st).
Proof.
  rewrite self_exec_done. repeat split.
  rewrite exec_done.
  destruct (should_stop (trainer st)) eqn:Hs; simpl; [|now left].
  destruct (met_min_epochs (self st) && met_min_steps (self st)); simpl; [now left|].
  right. repeat split.
Qed.

(** ** [__init__] *)

(** C6: the constructor defaults [max_epochs] to 1000 when neither maximum
    is given and [min_epochs] to 1 when neither minimum is given, keeps
    the given values otherwise, and starts at epoch 0 with the teardown
    guard down. *)
Theorem init_defaults (min_e max_e min_s max_s : option Z) :
  let l := __init__ min_e max_e min_s max_s in
  max_epochs l
  = match max_e, max_s with
    | None, None => Some 1000
    | _, _ => max_e
    end /\
  min_epochs l
  = match min_e, min_s with
    | None, None => Some 1
    | _, _ => min_e
    end /\
  current_epoch l = 0 /\
  _teardown_already_run l = false.
Proof.
  cbv zeta. unfold __init__. simpl.
  destruct min_e, max_e, min_s, max_s; repeat split.
Qed.

(** ** [check_checkpoint_callback] *)

Lemma run_unit (m : M unit) (st : State) : m st = (tt, exec m st).
Proof. unfold exec. destruct (m st) as [[] st']. reflexivity. Qed.

Lemma append_events_nil (st : State) : append_events [] st = st.
Proof.
  destruct st as [l t]. destruct t. unfold append_events, with_trace. simpl.
  now rewrite app_nil_r.
Qed.

Lemma append_events_app (a b : list event) (st : State) :
  append_events b (append_events a st) = append_events (a ++ b) st.
Proof.
  unfold append_events, with_trace. simpl. now rewrite app_assoc.
Qed.

Lemma exec_emit (e : event) (st : State) : exec (emit e) st = append_events [e] st.
Proof. reflexivity. Qed.

Lemma exec_call_on_validation_end (callbacks : list ModelCheckpoint) (st : State) :
  exec (call_on_validation_end callbacks) st
  = append_events (validation_end_calls (global_step (self st)) callbacks) st.
Proof.
  revert st. induction callbacks as [|cb rest IH]; intros st.
  - simpl. now rewrite append_events_nil.
  - change (exec (call_on_validation_end (cb :: rest)) st)
      with (exec (call_on_validation_end rest)
              (append_events [CbOnValidationEnd cb (global_step (self st))] st)).
    rewrite IH, append_events_app. reflexivity.
Qed.

Lemma exec_check_checkpoint_callback (should_update is_last : bool) (st : State) :
  exec (check_checkpoint_callback should_update is_last) st
  = if should_update && has_trained (trainer st)
    then append_events
           (saving_message is_last (checkpoint_callbacks (trainer st))
            ++ validation_end_calls (global_step (self st)) (checkpoint_callbacks (trainer st)))
           st
    else st.
Proof.
  unfold check_checkpoint_callback, exec, bind, gets, when. simpl.
  destruct (should_update && has_trained (trainer st)); [|reflexivity].
  unfold saving_message.
  destruct (is_last && existsb _ (checkpoint_callbacks (trainer st))).
  - rewrite (run_unit (emit _)), exec_emit.
    fold (exec (call_on_validation_end (checkpoint_callbacks (trainer st)))
            (append_events [RankZeroInfo "Saving latest checkpoint..."] st)).
    rewrite exec_call_on_validation_end, append_events_app. reflexivity.
  - unfold ret.
    fold (exec (call_on_validation_end (checkpoint_callbacks (trainer st))) st).
    now rewrite exec_call_on_validation_end.
Qed.

Lemma filter_validation_end_calls_keep (p : event -> bool) (g : Z)
      (callbacks : list ModelCheckpoint) :
  (forall cb, p (CbOnValidationEnd cb g) = true) ->
  filter p (validation_end_calls g callbacks) = validation_end_calls g callbacks.
Proof.
  intros Hp. induction callbacks as [|cb rest IH]; simpl; [reflexivity|].
  now rewrite Hp, IH.
Qed.

Lemma filter_validation_end_calls_drop (p : event -> bool) (g : Z)
      (callbacks : list ModelCheckpoint) :
  (forall cb, p (CbOnValidationEnd cb g) = false) ->
  filter p (validation_end_calls g callbacks) = [].
Proof.
  intros Hp. induction callbacks as [|cb rest IH]; simpl; [reflexivity|].
  now rewrite Hp.
Qed.

(** C7: [check_checkpoint_callback] does nothing unless [should_update]
    holds and the trainer has trained; otherwise it appends at most one
    "Saving latest checkpoint..." message (one exactly when [is_last] and
    some callback has [save_last] and [verbose], however many do) and
    then one validation-end call per registered callback, in order. *)
Theorem check_checkpoint_callback_effect (should_update is_last : bool) (st : State) :
  let callbacks := checkpoint_callbacks (trainer st) in
  let added :=
    (saving_message is_last callbacks
     ++ validation_end_calls (global_step (self st)) callbacks)%list in
  exec (check_checkpoint_callback should_update is_last) st
  = (if should_update && has_trained (trainer st) then append_events added st else st) /\
  List.length (filter is_saving_message added)
  = (if is_last && existsb (fun cb => save_last cb && verbose cb) callbacks then 1 else 0)%nat /\
  filter is_validation_end_call added = validation_end_calls (global_step (self st)) callbacks /\
  map (fun e => match e with CbOnValidationEnd cb _ => Some cb | _ => None end)
      (filter is_validation_end_call added)
  = map Some callbacks.
Proof.
  cbv zeta. split; [apply exec_check_checkpoint_callback|].
  rewrite !filter_app, filter_validation_end_calls_drop, filter_validation_end_calls_keep,
    app_nil_r by reflexivity.
  unfold saving_message.
  destruct (is_last && existsb _ (checkpoint_callbacks (trainer st))); simpl;
    (split; [reflexivity|]; split; [reflexivity|]);
    unfold validation_end_calls; rewrite map_map; reflexivity.
Qed.

(** ** [on_run_end] *)

Lemma exec_on_run_end (st : State) :
  exec on_run_end st
  = if _teardown_already_run (self st) then st
    else {| self := with_teardown_already_run true (self st);
            trainer :=
              with_running_stage None
                (with_trace (fun tr => (tr ++ teardown_events st)%list) (trainer st)) |}.
Proof.
  unfold on_run_end, exec, bind, gets. simpl.
  destruct (_teardown_already_run (self st)) eqn:Htd; [reflexivity|].
  unfold on_self, modify. simpl.
  rewrite (run_unit (check_checkpoint_callback true true)), exec_check_checkpoint_callback.
  destruct st as [[it td mx mn ce [g mns mxs w]] [ss rl ht cbs lg sm ag sch dv rs tr]].
  unfold teardown_events, call_hook, emit, on_trainer, modify, when, ret, append_events,
    with_training_loop, with_global_step, with_teardown_already_run, with_running_stage,
    with_trace, global_step.
  destruct ht, lg; simpl; replace (g - 1 + 1) with g by lia;
    rewrite <- ?app_assoc, ?app_nil_r; reflexivity.
Qed.

Lemma iter_on_run_end (n : nat) (st : State) :
  Nat.iter (S n) (exec on_run_end) st = exec on_run_end st.
Proof.
  induction n as [|n IH]; [reflexivity|].
  change (Nat.iter (S (S n)) (exec on_run_end) st)
    with (exec on_run_end (Nat.iter (S n) (exec on_run_end) st)).
  rewrite IH, (exec_on_run_end (exec on_run_end st)).
  rewrite (exec_on_run_end st).
  destruct (_teardown_already_run (self st)) eqn:Htd; simpl; [now rewrite Htd | reflexivity].
Qed.

(** C4: [on_run_end] raises the teardown guard; a call that finds the
    guard raised changes nothing, so any number of calls comes to the same
    as the first; and from a lowered guard they append the teardown's
    calls (checkpoint check, "on_train_end" hook, logger finalize,
    profiler describe, accelerator teardown) to the trace once, and unset
    the running stage. *)
Theorem on_run_end_runs_once (n : nat) (st : State) :
  _teardown_already_run (self (exec on_run_end st)) = true /\
  Nat.iter (S n) (exec on_run_end) st = exec on_run_end st /\
  exec on_run_end (exec on_run_end st) = exec on_run_end st /\
  (if _teardown_already_run (self st)
   then exec on_run_end st = st
   else
     trace (trainer (Nat.iter (S n) (exec on_run_end) st))
     = (trace (trainer st) ++ teardown_events st)%list /\
     _running_stage (trainer (Nat.iter (S n) (exec on_run_end) st)) = None /\
     List.length (filter (fun e => match e with CallHook _ => true | _ => false end)
                    (teardown_events st)) = 1%nat /\
     List.length (filter is_saving_message (teardown_events st)) = (
       if has_trained (trainer st)
          && existsb (fun cb => save_last cb && verbose cb) (checkpoint_callbacks (trainer st))
       then 1 else 0)%nat).
Proof.
  split.
  { rewrite exec_on_run_end. destruct (_teardown_already_run (self st)) eqn:Htd;
      [exact Htd | reflexivity]. }
  split; [apply iter_on_run_end|].
  split; [apply (iter_on_run_end 1)|].
  rewrite iter_on_run_end, exec_on_run_end.
  destruct (_teardown_already_run (self st)); [reflexivity|].
  split; [reflexivity|]. split; [reflexivity|].
  unfold teardown_events, saving_message. rewrite !filter_app.
  destruct (has_trained (trainer st)); simpl.
  - rewrite !filter_app, !filter_validation_end_calls_drop by reflexivity.
    destruct (existsb _ (checkpoint_callbacks (trainer st))), (has_logger (trainer st));
      split; reflexivity.
  - destruct (has_logger (trainer st)); split; reflexivity.
Qed.

(** C5: [on_run_end] leaves the global step where it found it, whatever
    it was: the checkpoint callbacks of the final check run at one less,
    and the step is put back afterwards. *)
Theorem on_run_end_keeps_global_step (st : State) :
  global_step (self (exec on_run_end st)) = global_step (self st) /\
  filter is_validation_end_call (trace (trainer (exec on_run_end st)))
  = (filter is_validation_end_call (trace (trainer st))
     ++ (if negb (_teardown_already_run (self st)) && has_trained (trainer st)
         then validation_end_calls (global_step (self st) - 1)
                (checkpoint_callbacks (trainer st))
         else []))%list.
Proof.
  rewrite exec_on_run_end.
  destruct (_teardown_already_run (self st)); simpl.
  - split; [reflexivity | now rewrite app_nil_r].
  - split; [reflexivity|]. rewrite filter_app. f_equal.
    unfold teardown_events. rewrite !filter_app.
    destruct (has_trained (trainer st)).
    + rewrite filter_app, filter_validation_end_calls_keep by reflexivity.
      unfold saving_message.
      destruct (true && existsb _ (checkpoint_callbacks (trainer st)));
        destruct (has_logger (trainer st)); simpl; now rewrite app_nil_r.
    + destruct (has_logger (trainer st)); reflexivity.
Qed.

(** ** [on_advance_start] *)

Lemma exec_on_advance_start (st : State) :
  exec on_advance_start st
  = {| self :=
         with_training_loop
           (with_accumulated_loss (Some (scheduled_grad_batches st)))
           (with_current_epoch (iteration_count (self st) + 1) (self st));
       trainer :=
         with_accumulate_grad_batches (scheduled_grad_batches st)
           (with_trace (fun tr => (tr ++ advance_start_events st)%list) (trainer st)) |}.
Proof.
  destruct st as [l [ss rl ht cbs lg sm ag sch dv rs tr]].
  unfold on_advance_start, accumulation_scheduler_on_train_epoch_start, advance_start_events,
    scheduled_grad_batches, exec, bind, gets, when, call_hook, emit,
    on_trainer, on_self, modify, ret, with_trace. simpl.
  destruct (negb (iteration_count l + 1 =? 0) && rl), sm,
    (sch (iteration_count l + 1)) eqn:Hsch; simpl; rewrite ?Hsch; simpl;
    rewrite <- ?app_assoc; reflexivity.
Qed.

(** From the first epoch on, the train dataloader is reset whenever the
    reload flag is set: the epoch number is never zero. *)
Lemma reset_whenever_flag_set (st : State) :
  0 <= iteration_count (self st) ->
  In ResetTrainDataloader (advance_start_events st)
  <-> reload_dataloaders_every_epoch (trainer st) = true.
Proof.
  intros Hit. unfold advance_start_events.
  destruct (Z.eqb_spec (iteration_count (self st) + 1) 0) as [E|_]; [lia|]. simpl.
  destruct (reload_dataloaders_every_epoch (trainer st)),
    (sampler_has_set_epoch (trainer st)); simpl; intuition discriminate.
Qed.

(** C8, at the input where it fails: on a freshly built loop, whose
    iteration counter is 0 and whose trace is empty, the very first
    [on_advance_start] already asks the trainer to rebuild the train
    dataloader when the reload flag is set; the epoch it tests against 0
    is 1. *)
Theorem reload_in_first_epoch :
  let st := connect (__init__ None None None None) example_trainer in
  iteration_count (self st) = 0 /\
  trace (trainer st) = [] /\
  reload_dataloaders_every_epoch (trainer st) = true /\
  current_epoch (self (exec on_advance_start st)) = 1 /\
  In ResetTrainDataloader (trace (trainer (exec on_advance_start st))).
Proof.
  cbv zeta. repeat split. rewrite exec_on_advance_start. simpl. now left.
Qed.

(** ** The run: what happens to [current_epoch] *)

Lemma keeps_ret {A : Type} (a : A) : keeps_epochs (ret a).
Proof. intros st. reflexivity. Qed.

Lemma keeps_gets {A : Type} (f : State -> A) : keeps_epochs (gets f).
Proof. intros st. reflexivity. Qed.

Lemma keeps_bind {A B : Type} (m : M A) (k : A -> M B) :
  keeps_epochs m -> (forall a, keeps_epochs (k a)) -> keeps_epochs (bind m k).
Proof.
  intros Hm Hk st. unfold bind. specialize (Hm st).
  destruct (m st) as [a st']. simpl in Hm. now rewrite Hk.
Qed.

Lemma keeps_when (b : bool) (m : M unit) : keeps_epochs m -> keeps_epochs (when b m).
Proof. intros Hm. destruct b; [exact Hm | apply keeps_ret]. Qed.

Lemma keeps_on_trainer (f : Trainer -> Trainer) : keeps_epochs (on_trainer f).
Proof. intros st. reflexivity. Qed.

Lemma keeps_emit (e : event) : keeps_epochs (emit e).
Proof. apply keeps_on_trainer. Qed.

Lemma keeps_on_training_loop (f : EpochLoop -> TrainingLoop -> TrainingLoop) :
  keeps_epochs (on_self (fun l => with_training_loop (f l) l)).
Proof. intros st. reflexivity. Qed.

Lemma keeps_teardown_flag (b : bool) : keeps_epochs (on_self (with_teardown_already_run b)).
Proof. intros st. reflexivity. Qed.

Create HintDb keeps.
#[local] Hint Resolve keeps_ret keeps_gets keeps_when keeps_on_trainer keeps_emit
  keeps_on_training_loop keeps_teardown_flag : keeps.
#[local] Hint Extern 2 (keeps_epochs (bind _ _)) => apply keeps_bind; [|intro] : keeps.
#[local] Hint Extern 2 (keeps_epochs (if ?b then _ else _)) => destruct b : keeps.

Lemma keeps_call_on_validation_end (callbacks : list ModelCheckpoint) :
  keeps_epochs (call_on_validation_end callbacks).
Proof.
  induction callbacks as [|cb rest IH]; simpl; auto 10 with keeps.
Qed.

Lemma keeps_check_checkpoint_callback (should_update is_last : bool) :
  keeps_epochs (check_checkpoint_callback should_update is_last).
Proof.
  unfold check_checkpoint_callback.
  pose proof keeps_call_on_validation_end. auto 10 with keeps.
Qed.

Lemma keeps_done : keeps_epochs done.
Proof. unfold done. auto 12 with keeps. Qed.

Lemma keeps_on_run_start : keeps_epochs on_run_start.
Proof. unfold on_run_start, call_hook. auto with keeps. Qed.

Lemma keeps_on_run_end : keeps_epochs on_run_end.
Proof.
  unfold on_run_end, call_hook.
  pose proof keeps_check_checkpoint_callback.
  pose proof (keeps_on_training_loop (fun l => with_global_step (global_step l - 1))).
  pose proof (keeps_on_training_loop (fun l => with_global_step (global_step l + 1))).
  auto 20 with keeps.
Qed.

Lemma keeps_collaborators (u : HostUpdate) : keeps_epochs (collaborators u).
Proof.
  unfold collaborators.
  pose proof (keeps_on_training_loop (fun _ => with_global_step (upd_global_step u))).
  auto 10 with keeps.
Qed.

Lemma keeps_advance (e : EpochEnv) : keeps_epochs (advance e).
Proof. unfold advance. pose proof keeps_collaborators. auto 10 with keeps. Qed.

Lemma keeps_on_advance_end (e : EpochEnv) : keeps_epochs (on_advance_end e).
Proof.
  unfold on_advance_end, increment_accumulated_grad_global_step.
  pose proof keeps_collaborators. pose proof keeps_check_checkpoint_callback.
  pose proof (keeps_on_training_loop (fun l => with_global_step (global_step l + 1))).
  auto 20 with keeps.
Qed.

Lemma keeps_exec {A : Type} (m : M A) (st : State) :
  keeps_epochs m -> epoch_view (exec m st) = epoch_view st.
Proof. intros Hm. apply Hm. Qed.

Lemma epoch_view_inv (st st' : State) :
  epoch_view st' = epoch_view st ->
  iteration_count (self st') = iteration_count (self st) /\
  current_epoch (self st') = current_epoch (self st) /\
  max_epochs (self st') = max_epochs (self st).
Proof. unfold epoch_view. intros H. inversion H. auto. Qed.

Lemma epoch_view_eq (st : State) (i c : Z) (m : option Z) :
  epoch_view st = (i, c, m) ->
  iteration_count (self st) = i /\ current_epoch (self st) = c /\ max_epochs (self st) = m.
Proof. unfold epoch_view. intros H. inversion H. auto. Qed.

Lemma steps_cons (a b : Z) (rest : list Z) :
  b = a \/ b = a + 1 ->
  steps_by_at_most_one (b :: rest) ->
  steps_by_at_most_one (a :: b :: rest).
Proof. intros Hab Hrest. split; assumption. Qed.

Lemma iterate_unfold (envs : list EpochEnv) (st : State) :
  iterate envs st
  = exec done st ::
    (if truthy (eval done st) then [exec on_run_end (exec done st)]
     else
       match envs with
       | [] => []
       | e :: envs' =>
           let st2 := exec on_advance_start (exec done st) in
           let st3 := exec (advance e) st2 in
           let st4 := exec (on_advance_end e) st3 in
           let st5 := exec bump_iteration_count st4 in
           st2 :: st3 :: st4 :: st5 :: iterate envs' st5
       end).
Proof.
  unfold exec, eval. destruct envs; simpl; destruct (done st); reflexivity.
Qed.

(** A falsy [done] means the epoch bound, if any, is not yet reached. *)
Lemma done_falsy_below_max (st : State) (m : Z) :
  truthy (eval done st) = false ->
  max_epochs (self st) = Some m ->
  current_epoch (self st) < m.
Proof.
  rewrite eval_done. simpl. intros H Hm.
  apply orb_false_elim in H as [_ H].
  unfold stop_epochs in H. rewrite Hm in H.
  rewrite Z.geb_leb in H. apply Z.leb_gt in H. exact H.
Qed.

(** The states of one epoch, seen through the epoch-counting fields. *)
Lemma epoch_views (e : EpochEnv) (st : State) :
  let st2 := exec on_advance_start st in
  let st3 := exec (advance e) st2 in
  let st4 := exec (on_advance_end e) st3 in
  let st5 := exec bump_iteration_count st4 in
  epoch_view st2 = (iteration_count (self st), iteration_count (self st) + 1, max_epochs (self st)) /\
  epoch_view st3 = epoch_view st2 /\
  epoch_view st4 = epoch_view st2 /\
  epoch_view st5
  = (iteration_count (self st) + 1, iteration_count (self st) + 1, max_epochs (self st)).
Proof.
  cbv zeta.
  assert (H2 : epoch_view (exec on_advance_start st)
               = (iteration_count (self st), iteration_count (self st) + 1,
                  max_epochs (self st))).
  { rewrite exec_on_advance_start. reflexivity. }
  pose proof (keeps_exec (exec on_advance_start st) (keeps_advance e)) as H3.
  pose proof (keeps_exec (exec (advance e) (exec on_advance_start st))
                (keeps_on_advance_end e)) as H4.
  rewrite H3 in H4. split; [exact H2|]. split; [exact H3|]. split; [exact H4|].
  set (st4 := exec (on_advance_end e) (exec (advance e) (exec on_advance_start st))) in *.
  change (epoch_view (exec bump_iteration_count st4))
    with (iteration_count (self st4) + 1, current_epoch (self st4), max_epochs (self st4)).
  rewrite H2 in H4. unfold epoch_view in H4. injection H4 as Hi Hc Hx.
  now rewrite Hi, Hc, Hx.
Qed.

(** The loop invariant, from a [done] check on: the iteration counter
    equals the current epoch there, and along the way the epoch moves up
    in steps of one, never past a bound that is not negative. *)
Lemma iterate_epochs (envs : list EpochEnv) (st : State) :
  current_epoch (self st) = iteration_count (self st) ->
  steps_by_at_most_one (current_epoch (self st) :: epochs_of (iterate envs st)) /\
  Forall epoch_tracks_iteration (iterate envs st) /\
  forall m, max_epochs (self st) = Some m -> current_epoch (self st) <= m ->
            Forall (fun s => max_epochs (self s) = Some m /\ current_epoch (self s) <= m)
              (iterate envs st).
Proof.
  revert st. induction envs as [|e envs IH]; intros st Heq;
    rewrite iterate_unfold;
    destruct (epoch_view_inv (keeps_exec st keeps_done)) as (Hi1 & Hc1 & Hm1);
    destruct (epoch_view_inv (keeps_exec (exec done st) keeps_on_run_end)) as (Hi2 & Hc2 & Hm2);
    destruct (truthy (eval done st)) eqn:Hd;
    try (unfold epochs_of, epoch_tracks_iteration; simpl;
         rewrite ?Hi2, ?Hc2, ?Hm2, ?Hi1, ?Hc1, ?Hm1;
         split; [auto|]; split; [|intros m Hm Hle];
         repeat (apply Forall_cons || apply Forall_nil);
         rewrite ?Hi2, ?Hc2, ?Hm2, ?Hi1, ?Hc1, ?Hm1; now auto).
  destruct (epoch_views e (exec done st)) as (V2 & V3 & V4 & V5).
  cbv zeta. rewrite V2 in V3, V4. rewrite Hi1, Hm1 in *.
  set (st2 := exec on_advance_start (exec done st)) in *.
  set (st3 := exec (advance e) st2) in *.
  set (st4 := exec (on_advance_end e) st3) in *.
  set (st5 := exec bump_iteration_count st4) in *.
  apply epoch_view_eq in V2 as (I2 & C2 & M2). apply epoch_view_eq in V3 as (I3 & C3 & M3).
  apply epoch_view_eq in V4 as (I4 & C4 & M4). apply epoch_view_eq in V5 as (I5 & C5 & M5).
  assert (Heq5 : current_epoch (self st5) = iteration_count (self st5))
    by (rewrite I5, C5; reflexivity).
  destruct (IH st5 Heq5) as (Hsteps & Htrack & Hmax).
  clearbody st5 st4 st3 st2.
  split; [|split].
  - unfold epochs_of in *. rewrite !map_cons.
    repeat (apply steps_cons; [rewrite ?Hc1, ?C2, ?C3, ?C4, ?C5, ?Heq; auto|]).
    exact Hsteps.
  - repeat (apply Forall_cons); try exact Htrack; unfold epoch_tracks_iteration;
      rewrite ?Hi1, ?Hc1, ?I2, ?C2, ?I3, ?C3, ?I4, ?C4, ?I5, ?C5; auto.
  - intros m Hm Hle.
    pose proof (done_falsy_below_max st Hd Hm) as Hlt.
    repeat (apply Forall_cons);
      rewrite ?Hm1, ?Hc1, ?M2, ?C2, ?M3, ?C3, ?M4, ?C4, ?M5, ?C5;
      try (split; [assumption | lia]).
    apply Hmax; rewrite ?M5, ?C5; [assumption | lia].
Qed.

(** *** Epochs started *)

Lemma started_ret {A : Type} (a : A) : keeps_started (ret a).
Proof. intros st. reflexivity. Qed.

Lemma started_gets {A : Type} (f : State -> A) : keeps_started (gets f).
Proof. intros st. reflexivity. Qed.

Lemma started_bind {A B : Type} (m : M A) (k : A -> M B) :
  keeps_started m -> (forall a, keeps_started (k a)) -> keeps_started (bind m k).
Proof.
  intros Hm Hk st. unfold bind. specialize (Hm st).
  destruct (m st) as [a st']. simpl in Hm. now rewrite Hk.
Qed.

Lemma started_when (b : bool) (m : M unit) : keeps_started m -> keeps_started (when b m).
Proof. intros Hm. destruct b; [exact Hm | apply started_ret]. Qed.

Lemma started_on_self (f : EpochLoop -> EpochLoop) : keeps_started (on_self f).
Proof. intros st. reflexivity. Qed.

Lemma started_on_trainer (f : Trainer -> Trainer) :
  (forall t, trace (f t) = trace t) -> keeps_started (on_trainer f).
Proof. intros Hf st. simpl. now rewrite Hf. Qed.

Lemma epochs_started_app (a b : list event) :
  epochs_started (a ++ b) = (epochs_started a + epochs_started b)%nat.
Proof. unfold epochs_started. now rewrite filter_app, length_app. Qed.

Lemma started_emit (e : event) : is_train_epoch_start e = false -> keeps_started (emit e).
Proof.
  intros He st. simpl. rewrite epochs_started_app. unfold epochs_started at 2. simpl.
  rewrite He. simpl. apply Nat.add_0_r.
Qed.

Create HintDb started.
#[local] Hint Resolve started_ret started_gets started_when started_on_self : started.
#[local] Hint Extern 2 (keeps_started (bind _ _)) => apply started_bind; [|intro] : started.
#[local] Hint Extern 2 (keeps_started (if ?b then _ else _)) => destruct b : started.
#[local] Hint Extern 2 (keeps_started (emit _)) => apply started_emit; reflexivity : started.
#[local] Hint Extern 2 (keeps_started (on_trainer _)) =>
  apply started_on_trainer; intro; reflexivity : started.

Lemma started_call_on_validation_end (callbacks : list ModelCheckpoint) :
  keeps_started (call_on_validation_end callbacks).
Proof.
  induction callbacks as [|cb rest IH]; simpl; auto 10 with started.
Qed.

Lemma started_check_checkpoint_callback (should_update is_last : bool) :
  keeps_started (check_checkpoint_callback should_update is_last).
Proof.
  unfold check_checkpoint_callback.
  pose proof started_call_on_validation_end. auto 10 with started.
Qed.

Lemma started_done : keeps_started done.
Proof. unfold done. auto 12 with started. Qed.

Lemma started_on_run_start : keeps_started on_run_start.
Proof. unfold on_run_start, call_hook. auto with started. Qed.

Lemma started_on_run_end : keeps_started on_run_end.
Proof.
  unfold on_run_end, call_hook.
  pose proof started_check_checkpoint_callback. auto 20 with started.
Qed.

Lemma started_collaborators (u : HostUpdate) : keeps_started (collaborators u).
Proof. unfold collaborators. auto 10 with started. Qed.

Lemma started_advance (e : EpochEnv) : keeps_started (advance e).
Proof. unfold advance. pose proof started_collaborators. auto 10 with started. Qed.

Lemma started_on_advance_end (e : EpochEnv) : keeps_started (on_advance_end e).
Proof.
  unfold on_advance_end, increment_accumulated_grad_global_step.
  pose proof started_collaborators. pose proof started_check_checkpoint_callback.
  auto 20 with started.
Qed.

Lemma started_bump_iteration_count : keeps_started bump_iteration_count.
Proof. unfold bump_iteration_count. auto with started. Qed.

(** [on_advance_start] starts one epoch. *)
Lemma started_on_advance_start (st : State) :
  epochs_started (trace (trainer (exec on_advance_start st)))
  = S (epochs_started (trace (trainer st))).
Proof.
  rewrite exec_on_advance_start. simpl. rewrite epochs_started_app.
  unfold advance_start_events.
  destruct (negb (iteration_count (self st) + 1 =? 0)
            && reload_dataloaders_every_epoch (trainer st)),
    (sampler_has_set_epoch (trainer st)); simpl; apply Nat.add_1_r.
Qed.

(** Along the loop the current epoch grows by one with each epoch
    started, and only then. *)
Lemma iterate_started (envs : list EpochEnv) (st : State) :
  current_epoch (self st) = iteration_count (self st) ->
  Forall (epochs_follow_starts st) (iterate envs st).
Proof.
  revert st. induction envs as [|e envs IH]; intros st Heq;
    rewrite iterate_unfold;
    destruct (epoch_view_inv (keeps_exec st keeps_done)) as (Hi1 & Hc1 & _);
    destruct (epoch_view_inv (keeps_exec (exec done st) keeps_on_run_end)) as (_ & Hc2 & _);
    pose proof (started_done st) as Hs1;
    pose proof (started_on_run_end (exec done st)) as Hs2;
    fold (exec done st) in Hs1; fold (exec on_run_end (exec done st)) in Hs2;
    destruct (truthy (eval done st));
    try (repeat (apply Forall_cons || apply Forall_nil); unfold epochs_follow_starts;
         rewrite ?Hc2, ?Hs2, ?Hc1, ?Hs1; reflexivity).
  destruct (epoch_views e (exec done st)) as (V2 & V3 & V4 & V5).
  cbv zeta. rewrite V2 in V3, V4. rewrite Hi1 in *.
  pose proof (started_on_advance_start (exec done st)) as S2.
  pose proof (started_advance e (exec on_advance_start (exec done st))) as S3.
  fold (exec (advance e) (exec on_advance_start (exec done st))) in S3.
  set (st2 := exec on_advance_start (exec done st)) in *.
  set (st3 := exec (advance e) st2) in *.
  pose proof (started_on_advance_end e st3) as S4.
  fold (exec (on_advance_end e) st3) in S4.
  set (st4 := exec (on_advance_end e) st3) in *.
  pose proof (started_bump_iteration_count st4) as S5.
  fold (exec bump_iteration_count st4) in S5.
  set (st5 := exec bump_iteration_count st4) in *.
  apply epoch_view_eq in V2 as (_ & C2 & _). apply epoch_view_eq in V3 as (_ & C3 & _).
  apply epoch_view_eq in V4 as (_ & C4 & _). apply epoch_view_eq in V5 as (I5 & C5 & _).
  assert (Heq5 : current_epoch (self st5) = iteration_count (self st5))
    by (rewrite I5, C5; reflexivity).
  pose proof (IH st5 Heq5) as Hrest.
  clearbody st5 st4 st3 st2.
  rewrite S4 in S5. rewrite S3 in S4, S5. rewrite S2 in S3, S4, S5. rewrite Hs1 in S2, S3, S4, S5.
  repeat (apply Forall_cons);
    try (unfold epochs_follow_starts;
         rewrite ?Hc1, ?Hs1, ?C2, ?S2, ?C3, ?S3, ?C4, ?S4, ?C5, ?S5, <- ?Heq, ?Nat2Z.inj_succ;
         lia).
  eapply Forall_impl; [|exact Hrest].
  intros s. unfold epochs_follow_starts. rewrite C5, S5, <- Heq, Nat2Z.inj_succ. lia.
Qed.

(** A run bounded by two epochs: the epoch goes 0, 1, 2 and the run ends
    with the teardown. *)
Example run_two_epochs :
  let states :=
    run [example_epoch 1; example_epoch 2; example_epoch 3]
      (connect (__init__ None (Some 2) None None) example_trainer) in
  epochs_of states = [0; 0; 0; 1; 1; 1; 1; 1; 2; 2; 2; 2; 2; 2] /\
  option_map (fun st => _teardown_already_run (self st)) (last (map Some states) None)
  = Some true.
Proof. split; reflexivity. Qed.

(** C3, as stated, fails: a loop built with [max_epochs = -1] is at
    epoch 0, above its bound, from the start. *)
Lemma epoch_above_negative_max :
  ~ Forall epoch_within_max
      (run [] (connect (__init__ None (Some (-1)) None None) example_trainer)).
Proof.
  intros H. apply Forall_inv in H. vm_compute in H. now apply H.
Qed.

(** C3, amended: along a run of the loop that starts, as a constructed
    loop does, with the current epoch equal to the iteration counter, the
    current epoch never decreases; [on_advance_start] sets it to the
    iteration counter plus one, which raises it by exactly one with each
    epoch started, so that it has grown by the number of epochs started;
    it equals the counter, or exceeds it by one during an epoch; and when
    [max_epochs] is set and the run does not start above it (for a
    constructed loop: when it is not negative), the current epoch never
    exceeds it, at any state of the run, the state after [on_run_end]
    included. *)
Theorem current_epoch_in_a_run (st : State) (envs : list EpochEnv) :
  current_epoch (self st) = iteration_count (self st) ->
  let states := run envs st in
  steps_by_at_most_one (epochs_of states) /\
  Forall epoch_tracks_iteration states /\
  Forall (epochs_follow_starts st) states /\
  (forall st', current_epoch (self (exec on_advance_start st')) = iteration_count (self st') + 1) /\
  (forall m, max_epochs (self st) = Some m -> current_epoch (self st) <= m ->
             Forall epoch_within_max states /\
             Forall (fun s => max_epochs (self s) = Some m) states).
Proof.
  intros Heq states.
  destruct (epoch_view_inv (keeps_exec st keeps_on_run_start)) as (Hi0 & Hc0 & Hm0).
  pose proof (started_on_run_start st) as Hs0. fold (exec on_run_start st) in Hs0.
  assert (Heq0 : current_epoch (self (exec on_run_start st))
                 = iteration_count (self (exec on_run_start st)))
    by (rewrite Hi0, Hc0; exact Heq).
  destruct (iterate_epochs envs _ Heq0) as (Hsteps & Htrack & Hmax).
  pose proof (iterate_started envs _ Heq0) as Hstarted.
  split; [|split; [|split; [|split]]].
  - unfold states, run, epochs_of in *. rewrite !map_cons.
    apply steps_cons; [rewrite Hc0; now left | exact Hsteps].
  - unfold states, run.
    repeat (apply Forall_cons); try exact Htrack; unfold epoch_tracks_iteration;
      rewrite ?Hi0, ?Hc0; now left.
  - unfold states, run.
    repeat (apply Forall_cons);
      [reflexivity
      |unfold epochs_follow_starts; rewrite Hc0, Hs0; reflexivity
      |eapply Forall_impl; [|exact Hstarted]].
    intros s. unfold epochs_follow_starts. now rewrite Hc0, Hs0.
  - intros st'. rewrite exec_on_advance_start. reflexivity.
  - intros m Hm Hle.
    assert (Hall : Forall (fun s => max_epochs (self s) = Some m /\ current_epoch (self s) <= m)
                     states).
    { unfold states, run.
      repeat (apply Forall_cons);
        [split; [exact Hm | exact Hle]
        |split; [rewrite Hm0; exact Hm | rewrite Hc0; exact Hle]
        |apply Hmax; [rewrite Hm0; exact Hm | rewrite Hc0; exact Hle]]. }
    split; eapply Forall_impl; try exact Hall; simpl.
    + intros s [Hs Hle']. unfold epoch_within_max. now rewrite Hs.
    + intros s [Hs _]. exact Hs.
Qed.

Lemma current_epoch_in_a_run_witness :
  let st := connect (__init__ None (Some 2) None None) example_trainer in
  let states := run [example_epoch 1; example_epoch 2; example_epoch 3] st in
  Forall (epochs_follow_starts st) states /\
  Forall epoch_within_max states /\
  Forall (fun s => max_epochs (self s) = Some 2) states.
Proof.
  intros st states.
  destruct (current_epoch_in_a_run st
              [example_epoch 1; example_epoch 2; example_epoch 3] eq_refl)
    as (_ & _ & Hstarted & _ & Hmax).
  split; [exact Hstarted|].
  apply (Hmax 2); [reflexivity | apply Z.leb_le; reflexivity].
Defined.

(** ** Scenarios *)

(** Two callbacks with [save_last] and [verbose]: the final teardown
    prints the saving message once and calls both, at the global step
    less one. *)
Example teardown_with_two_callbacks :
  trace (trainer (exec on_run_end (connect (__init__ None None None None) example_trainer)))
  = [RankZeroInfo "Saving latest checkpoint...";
     CbOnValidationEnd (mkModelCheckpoint "last" true true) (-1);
     CbOnValidationEnd (mkModelCheckpoint "last" true true) (-1);
     CallHook "on_train_end"; LoggerFinalize "success";
     ProfilerDescribe; AcceleratorOnTrainEnd].
Proof. reflexivity. Qed.

(** [min_epochs = 2], [max_epochs = 10]: a stop requested before the
    first epoch is deferred and the signal cleared; requested again once
    the current epoch is 1, it is honoured. *)
Example stop_deferred_then_honoured :
  let st := connect (__init__ (Some 2) (Some 10) None None)
              (with_should_stop true example_trainer) in
  let st1 := exec on_advance_start (exec done st) in
  let st2 := exec (on_trainer (with_should_stop true)) st1 in
  eval done st = PyBool false /\
  should_stop (trainer (exec done st)) = false /\
  current_epoch (self st2) = 1 /\
  eval done st2 = PyBool true /\
  should_stop (trainer (exec done st2)) = true.
Proof. repeat split; reflexivity. Qed.

(** * Further properties of the loop's methods *)

(** ** [done] *)

(** X1: [done] always returns a genuine boolean, although its first
    operand [stop_steps] may be [None] or the integer 0. *)
Theorem done_returns_bool (st : State) :
  exists b : bool, eval done st = PyBool b.
Proof. rewrite eval_done. eexists. reflexivity. Qed.

(** X2: checking [done] twice in a row is the same as checking it once:
    the second check gives the same answer, changes nothing and logs
    nothing more. *)
Theorem done_idempotent (st : State) :
  exec done (exec done st) = exec done st /\
  eval done (exec done st) = eval done st.
Proof.
  rewrite !eval_done, (exec_done (exec done st)), (exec_done st).
  destruct (should_stop (trainer st)) eqn:Hs; simpl.
  - destruct (met_min_epochs (self st) && met_min_steps (self st)) eqn:Hmet; simpl.
    + rewrite ?Hs, ?Hmet. split; reflexivity.
    + split; [reflexivity|].
      change (met_min_epochs (self (deferred st))) with (met_min_epochs (self st)).
      change (met_min_steps (self (deferred st))) with (met_min_steps (self st)).
      rewrite ?Hmet. reflexivity.
  - rewrite ?Hs. split; reflexivity.
Qed.

(** X3: whenever [done] returns false the stop signal is down afterwards:
    a stop request never outlives a check that lets training continue. *)
Theorem done_false_clears_signal (st : State) :
  eval done st = PyBool false ->
  should_stop (trainer (exec done st)) = false.
Proof.
  rewrite eval_done, exec_done. intros H. injection H as H.
  apply orb_false_elim in H as [H _]. apply orb_false_elim in H as [_ H].
  destruct (should_stop (trainer st)) eqn:Hs; simpl in *.
  - rewrite H. reflexivity.
  - exact Hs.
Qed.

Lemma done_false_clears_signal_witness :
  let st := connect (__init__ (Some 3) (Some 10) None None)
              (with_should_stop true example_trainer) in
  should_stop (trainer st) = true /\
  should_stop (trainer (exec done st)) = false.
Proof.
  intro st. split; [reflexivity|].
  apply (done_false_clears_signal st). reflexivity.
Defined.

Lemma met_min_epochs_mono (l : EpochLoop) (c : Z) :
  current_epoch l <= c ->
  met_min_epochs l = true -> met_min_epochs (with_current_epoch c l) = true.
Proof.
  intros Hc. unfold met_min_epochs. simpl. destruct (min_epochs l) as [m|]; [|reflexivity].
  destruct (negb (m =? 0)); [|reflexivity].
  rewrite !Z.geb_leb, !Z.leb_le. lia.
Qed.

Lemma met_min_steps_mono (l : EpochLoop) (g : Z) :
  global_step l <= g ->
  met_min_steps l = true ->
  met_min_steps (with_training_loop (with_global_step g) l) = true.
Proof.
  intros Hg. unfold met_min_steps, min_steps, global_step in *. simpl.
  destruct (tl_min_steps (training_loop l)) as [m|]; [|reflexivity].
  destruct (negb (m =? 0)); [|reflexivity].
  rewrite !Z.geb_leb, !Z.leb_le. lia.
Qed.

(** X4: [done] is monotone in the counters: once it is true it stays true
    when the current epoch and the global step grow, the bounds and the
    stop signal being the same. *)
Theorem done_monotone (st : State) (c g : Z) :
  current_epoch (self st) <= c ->
  global_step (self st) <= g ->
  eval done st = PyBool true ->
  eval done (at_counters c g st) = PyBool true.
Proof.
  intros Hc Hg. rewrite !eval_done. intros H. injection H as H. f_equal.
  apply orb_true_iff in H as [H|H]; [apply orb_true_iff in H as [H|H]|].
  - rewrite truthy_stop_steps in *. unfold at_counters, max_steps, global_step in *. simpl.
    destruct (tl_max_steps (training_loop (self st))) as [m|]; [|discriminate].
    apply andb_prop in H as [Hz Hle]. rewrite Hz. simpl.
    apply Z.leb_le in Hle. replace (m <=? g) with true by (symmetry; apply Z.leb_le; lia).
    reflexivity.
  - apply andb_prop in H as [Hs Hm]. apply andb_prop in Hm as [He Hm].
    apply (met_min_epochs_mono _ Hc) in He. apply (met_min_steps_mono _ Hg) in Hm.
    unfold at_counters. simpl.
    assert (He' : met_min_epochs
                    (with_current_epoch c (with_training_loop (with_global_step g) (self st)))
                  = true) by exact He.
    assert (Hm' : met_min_steps
                    (with_current_epoch c (with_training_loop (with_global_step g) (self st)))
                  = true) by exact Hm.
    rewrite Hs, He', Hm'. simpl. now rewrite orb_true_r.
  - unfold stop_epochs, at_counters in *. simpl.
    destruct (max_epochs (self st)) as [m|]; [|discriminate].
    rewrite Z.geb_leb in *. apply Z.leb_le in H.
    replace (m <=? c) with true by (symmetry; apply Z.leb_le; lia).
    now rewrite orb_true_r.
Qed.

Lemma done_monotone_witness :
  let st := at_counters 2 0 (connect (__init__ None (Some 2) None None) example_trainer) in
  eval done (at_counters 5 40 st) = PyBool true.
Proof.
  intro st.
  apply (done_monotone st); [apply Z.leb_le; reflexivity .. | reflexivity].
Defined.

(** X5: a maximum that is reached ends the run whatever else holds: an
    epoch bound at or below the current epoch, or a step bound other than
    zero at or below the global step, makes [done] true for every stop
    signal and every floor. *)
Theorem done_true_at_maximum (st : State) :
  stopByEpochs (self st) = true \/
  (stopBySteps (self st) = true /\ max_steps (self st) <> Some 0) ->
  eval done st = PyBool true.
Proof.
  rewrite eval_done, truthy_stop_steps, stop_epochs_stopByEpochs.
  intros [H|[H Hz]].
  - rewrite H. now rewrite orb_true_r.
  - unfold stopBySteps in H. destruct (max_steps (self st)) as [m|]; [|discriminate].
    destruct (Z.eqb_spec m 0) as [->|_]; [congruence|]. now rewrite H.
Qed.

Lemma done_true_at_maximum_witness :
  eval done (connect (__init__ (Some 5) (Some 0) (Some 100) (Some 0)) example_trainer)
  = PyBool true.
Proof.
  apply done_true_at_maximum. left. reflexivity.
Defined.

(** X6: a floor of one epoch is no floor: with [min_epochs = 1] and no
    step floor, a stop signal is honoured at any epoch from 0 on, before
    any training, and stays set. *)
Theorem min_epochs_one_never_defers (st : State) :
  min_epochs (self st) = Some 1 ->
  min_steps (self st) = None ->
  0 <= current_epoch (self st) ->
  should_stop (trainer st) = true ->
  eval done st = PyBool true /\ exec done st = st.
Proof.
  intros He Hm Hc Hs.
  assert (Hmet : met_min_epochs (self st) && met_min_steps (self st) = true).
  { unfold met_min_epochs, met_min_steps. rewrite He, Hm. simpl.
    rewrite Z.geb_leb, andb_true_r. apply Z.leb_le. exact Hc. }
  rewrite eval_done, exec_done, Hs, Hmet. simpl. now rewrite orb_true_r.
Qed.

Lemma min_epochs_one_never_defers_witness :
  let st := connect (__init__ None None None None) (with_should_stop true example_trainer) in
  eval done st = PyBool true /\ exec done st = st.
Proof.
  intro st.
  apply (min_epochs_one_never_defers st);
    [reflexivity | reflexivity | apply Z.leb_le; reflexivity | reflexivity].
Defined.

(** ** [__init__] *)

(** X7: a constructed loop always has a maximum and a minimum to go by:
    [max_epochs] is unset only when [max_steps] was given, and
    [min_epochs] only when [min_steps] was given. *)
Theorem init_keeps_a_bound (min_e max_e min_s max_s : option Z) :
  let l := __init__ min_e max_e min_s max_s in
  is_None (max_epochs l) && is_None max_s = false /\
  is_None (min_epochs l) && is_None min_s = false.
Proof.
  cbv zeta. unfold __init__. simpl.
  destruct min_e, max_e, min_s, max_s; split; reflexivity.
Qed.

(** X8: the defaults are stable: building a loop again from the bounds
    a constructed loop resolved gives the same loop. *)
Theorem init_defaults_stable (min_e max_e min_s max_s : option Z) :
  let l := __init__ min_e max_e min_s max_s in
  __init__ (min_epochs l) (max_epochs l) min_s max_s = l.
Proof.
  cbv zeta. unfold __init__. simpl.
  destruct min_e, max_e, min_s, max_s; reflexivity.
Qed.

(** ** [check_checkpoint_callback] *)

(** X9: with no checkpoint callback registered the check does nothing at
    all, also as the last check of a trainer that has trained. *)
Theorem check_checkpoint_callback_no_callbacks (should_update is_last : bool) (st : State) :
  checkpoint_callbacks (trainer st) = [] ->
  exec (check_checkpoint_callback should_update is_last) st = st.
Proof.
  intros Hcb. rewrite exec_check_checkpoint_callback, Hcb.
  unfold saving_message. rewrite andb_false_r. simpl.
  rewrite append_events_nil. now destruct (should_update && has_trained (trainer st)).
Qed.

Lemma check_checkpoint_callback_no_callbacks_witness :
  let st :=
    connect (__init__ None None None None)
      (mkTrainer false false true [] true true 1 (fun _ => None) false (Some TRAINING) []) in
  exec (check_checkpoint_callback true true) st = st.
Proof.
  intro st. apply (check_checkpoint_callback_no_callbacks true true st). reflexivity.
Defined.

(** ** [on_run_end] *)

(** X10: the teardown touches nothing of the loop but its guard and, on
    the trainer, only the trace and the running stage: counters, bounds,
    stop signal and callbacks are as before. *)
Theorem on_run_end_frame (st : State) :
  let st' := exec on_run_end st in
  self st' = with_teardown_already_run true (self st) /\
  current_epoch (self st') = current_epoch (self st) /\
  iteration_count (self st') = iteration_count (self st) /\
  training_loop (self st') = training_loop (self st) /\
  min_epochs (self st') = min_epochs (self st) /\
  max_epochs (self st') = max_epochs (self st) /\
  should_stop (trainer st') = should_stop (trainer st) /\
  has_trained (trainer st') = has_trained (trainer st) /\
  checkpoint_callbacks (trainer st') = checkpoint_callbacks (trainer st).
Proof.
  cbv zeta. rewrite exec_on_run_end.
  destruct (_teardown_already_run (self st)) eqn:Htd; simpl; repeat split.
  destruct st as [[it td mx mn ce tl] t]. simpl in Htd. subst td. reflexivity.
Qed.

(** X11: the teardown does not change what [done] answers. *)
Theorem done_after_on_run_end (st : State) :
  eval done (exec on_run_end st) = eval done st.
Proof.
  rewrite !eval_done, exec_on_run_end.
  destruct (_teardown_already_run (self st)); reflexivity.
Qed.

(** X12: when the trainer has not trained, an effective teardown calls no
    checkpoint callback and prints no saving message; the "on_train_end"
    hook, the logger (if there is one), the profiler and the accelerator
    are still called, in that order. *)
Theorem on_run_end_untrained (st : State) :
  _teardown_already_run (self st) = false ->
  has_trained (trainer st) = false ->
  trace (trainer (exec on_run_end st))
  = (trace (trainer st)
     ++ [CallHook "on_train_end"]
     ++ (if has_logger (trainer st) then [LoggerFinalize "success"] else [])
     ++ [ProfilerDescribe; AcceleratorOnTrainEnd])%list.
Proof.
  intros Htd Hnt. rewrite exec_on_run_end, Htd. simpl.
  unfold teardown_events. rewrite Hnt. reflexivity.
Qed.

Lemma on_run_end_untrained_witness :
  let st :=
    connect (__init__ None None None None)
      (with_has_trained false example_trainer) in
  trace (trainer (exec on_run_end st))
  = [CallHook "on_train_end"; LoggerFinalize "success";
     ProfilerDescribe; AcceleratorOnTrainEnd].
Proof.
  intro st. apply (on_run_end_untrained st); reflexivity.
Defined.

(** ** [on_advance_start] *)

(** X13: [on_advance_start] writes the current epoch and installs a
    fresh accumulated-loss window, as long as the trainer's
    [accumulate_grad_batches] is once the accumulation scheduler has been
    told of the new epoch; the iteration counter, the bounds, the
    teardown guard, the global step, the stop signal and the running
    stage are left alone. *)
Theorem on_advance_start_frame (st : State) :
  let st' := exec on_advance_start st in
  iteration_count (self st') = iteration_count (self st) /\
  min_epochs (self st') = min_epochs (self st) /\
  max_epochs (self st') = max_epochs (self st) /\
  _teardown_already_run (self st') = _teardown_already_run (self st) /\
  global_step (self st') = global_step (self st) /\
  min_steps (self st') = min_steps (self st) /\
  max_steps (self st') = max_steps (self st) /\
  accumulate_grad_batches (trainer st') = scheduled_grad_batches st /\
  accumulated_loss_window (training_loop (self st'))
  = Some (accumulate_grad_batches (trainer st')) /\
  should_stop (trainer st') = should_stop (trainer st) /\
  has_trained (trainer st') = has_trained (trainer st) /\
  _running_stage (trainer st') = _running_stage (trainer st).
Proof. cbv zeta. rewrite exec_on_advance_start. repeat split. Qed.

(** A schedule that asks for four batches from the first epoch on: the
    window installed by the first [on_advance_start] has that length,
    not the one batch the trainer had on entry. *)
Example window_follows_scheduler :
  let t := mkTrainer false false true [] true false 1
             (fun epoch => if 1 <=? epoch then Some 4 else None)
             false (Some TRAINING) [] in
  let st' := exec on_advance_start (connect (__init__ None None None None) t) in
  accumulate_grad_batches (trainer st') = 4 /\
  accumulated_loss_window (training_loop (self st')) = Some 4.
Proof. split; reflexivity. Qed.


(** X15: as soon as the epoch that reaches the bound has started, [done]
    is true: with [max_epochs = m] and an iteration counter of at least
    [m - 1], the check after [on_advance_start] says stop, for every stop
    signal and step bound. *)
Theorem done_once_last_epoch_started (st : State) (m : Z) :
  max_epochs (self st) = Some m ->
  m <= iteration_count (self st) + 1 ->
  eval done (exec on_advance_start st) = PyBool true.
Proof.
  intros Hm Hle. apply done_true_at_maximum. left.
  rewrite exec_on_advance_start. unfold stopByEpochs. simpl. rewrite Hm.
  apply Z.leb_le. exact Hle.
Qed.

Lemma done_once_last_epoch_started_witness :
  eval done
    (exec on_advance_start (connect (__init__ None (Some 1) None None) example_trainer))
  = PyBool true.
Proof.
  apply (done_once_last_epoch_started
           (connect (__init__ None (Some 1) None None) example_trainer) (m := 1));
    [reflexivity | apply Z.leb_le; reflexivity].
Defined.

(** ** [on_advance_end] *)

Lemma on_advance_end_effect (e : EpochEnv) (st : State) :
  let st' := exec (on_advance_end e) st in
  trace (trainer st') = (trace (trainer st) ++ advance_end_events e st)%list /\
  _running_stage (trainer st')
  = (if should_check_val e then Some TRAINING else _running_stage (trainer st)) /\
  checkpoint_callbacks (trainer st') = checkpoint_callbacks (trainer st) /\
  disable_validation (trainer st') = disable_validation (trainer st) /\
  reload_dataloaders_every_epoch (trainer st') = reload_dataloaders_every_epoch (trainer st) /\
  current_epoch (self st') = current_epoch (self st) /\
  iteration_count (self st') = iteration_count (self st) /\
  min_epochs (self st') = min_epochs (self st) /\
  max_epochs (self st') = max_epochs (self st) /\
  min_steps (self st') = min_steps (self st) /\
  max_steps (self st') = max_steps (self st) /\
  _teardown_already_run (self st') = _teardown_already_run (self st).
Proof.
  destruct st as [l [ss rl ht cbs lg sm ag sch dv rs tr]].
  destruct e as [ar scv sse ae].
  cbv zeta. unfold on_advance_end, advance_end_events, exec, bind, gets. simpl.
  destruct dv, sse, scv; simpl;
    unfold when, ret, emit, on_trainer, modify, bind; simpl;
    rewrite ?(run_unit (check_checkpoint_callback true false)),
      ?exec_check_checkpoint_callback; simpl;
    destruct ht; simpl; rewrite <- ?app_assoc, ?app_nil_r; repeat split.
Qed.

(** X16: [on_advance_end] never prints the "Saving latest checkpoint..."
    message: its checkpoint check is not the last one. *)
Theorem on_advance_end_no_saving_message (e : EpochEnv) (st : State) :
  filter is_saving_message (trace (trainer (exec (on_advance_end e) st)))
  = filter is_saving_message (trace (trainer st)).
Proof.
  destruct (on_advance_end_effect e st) as (Htr & _). rewrite Htr, filter_app.
  unfold advance_end_events. rewrite !filter_app.
  destruct (negb (should_check_val e)
            || (disable_validation (trainer st) || should_skip_eval e)),
    ((disable_validation (trainer st) || should_skip_eval e) && has_trained (trainer st)),
    (should_check_val e);
    rewrite ?filter_validation_end_calls_drop by reflexivity; simpl;
    now rewrite app_nil_r.
Qed.

Lemma existsb_validation_end_calls (p : event -> bool) (g : Z)
      (callbacks : list ModelCheckpoint) :
  (forall cb, p (CbOnValidationEnd cb g) = false) ->
  existsb p (validation_end_calls g callbacks) = false.
Proof.
  intros Hp. induction callbacks as [|cb rest IH]; simpl; [reflexivity|].
  now rewrite Hp.
Qed.

(** X17: every [on_advance_end] updates the epoch learning-rate
    schedules or runs the evaluation, and does both when a validation
    check is due on a trainer that trains only: the update happens exactly
    when no check is due or the trainer trains only, the evaluation
    exactly when a check is due, validation disabled or not. *)
Theorem on_advance_end_lr_or_evaluation (e : EpochEnv) (st : State) :
  let added := advance_end_events e st in
  let should_train_only := disable_validation (trainer st) || should_skip_eval e in
  trace (trainer (exec (on_advance_end e) st)) = (trace (trainer st) ++ added)%list /\
  existsb is_lr_update added = negb (should_check_val e) || should_train_only /\
  List.length (filter is_lr_update added) = (
    if negb (should_check_val e) || should_train_only then 1 else 0)%nat /\
  existsb is_run_evaluation added = should_check_val e /\
  existsb is_lr_update added || existsb is_run_evaluation added = true.
Proof.
  cbv zeta. destruct (on_advance_end_effect e st) as (Htr & _). split; [exact Htr|].
  unfold advance_end_events. rewrite !existsb_app, !filter_app.
  destruct (disable_validation (trainer st)), (should_skip_eval e), (should_check_val e),
    (has_trained (trainer st)); simpl;
    rewrite ?existsb_validation_end_calls, ?filter_validation_end_calls_drop by reflexivity;
    repeat split.
Qed.

(** X18: at the end of an epoch the checkpoint callbacks are called
    exactly when the trainer trains only (validation disabled or skipped)
    and has trained, once each in registration order, and they see the
    global step as it was on entry. *)
Theorem on_advance_end_checkpoint_calls (e : EpochEnv) (st : State) :
  filter is_validation_end_call (trace (trainer (exec (on_advance_end e) st)))
  = (filter is_validation_end_call (trace (trainer st))
     ++ (if (disable_validation (trainer st) || should_skip_eval e)
            && has_trained (trainer st)
         then validation_end_calls (global_step (self st)) (checkpoint_callbacks (trainer st))
         else []))%list.
Proof.
  destruct (on_advance_end_effect e st) as (Htr & _). rewrite Htr, filter_app. f_equal.
  unfold advance_end_events. rewrite !filter_app.
  destruct (negb (should_check_val e)
            || (disable_validation (trainer st) || should_skip_eval e)),
    ((disable_validation (trainer st) || should_skip_eval e) && has_trained (trainer st)),
    (should_check_val e);
    rewrite ?filter_validation_end_calls_keep by reflexivity; simpl;
    rewrite ?app_nil_r; reflexivity.
Qed.

(** X19: [on_advance_end] hands the trainer back in training mode after
    an evaluation and leaves the running stage alone otherwise; it never
    changes the current epoch, the iteration counter, the bounds or the
    teardown guard. *)
Theorem on_advance_end_frame (e : EpochEnv) (st : State) :
  let st' := exec (on_advance_end e) st in
  _running_stage (trainer st')
  = (if should_check_val e then Some TRAINING else _running_stage (trainer st)) /\
  current_epoch (self st') = current_epoch (self st) /\
  iteration_count (self st') = iteration_count (self st) /\
  min_epochs (self st') = min_epochs (self st) /\
  max_epochs (self st') = max_epochs (self st) /\
  min_steps (self st') = min_steps (self st) /\
  max_steps (self st') = max_steps (self st) /\
  _teardown_already_run (self st') = _teardown_already_run (self st) /\
  checkpoint_callbacks (trainer st') = checkpoint_callbacks (trainer st).
Proof.
  cbv zeta.
  destruct (on_advance_end_effect e st)
    as (_ & Hrs & Hcb & _ & _ & Hce & Hit & Hmn & Hmx & Hms & Hxs & Htd).
  repeat split; assumption.
Qed.
